(** * Response observation and contract enforcement: ApiHub and ImageAssetDTO

    A shallow embedding of [lib/ApiHub.ts] (the latency ledger, its
    response listener and its SLA assertion) and of the [ImageAssetDTO]
    class (the throwing constructor that validates a raw payload, and the
    provider whitelist), followed by the properties the specification
    states about them.

    Conventions of the embedding.
    - A JavaScript [number] is modelled by an integer of [Z]: latencies and
      durations are counts of milliseconds.  The integer model is exact for
      the safe integers (magnitude up to 2^53); [NaN], the infinities,
      fractions and the rounding of larger values are outside it.  Where
      rounding decides a property (the SLA check at its boundary), the
      same methods are given over IEEE doubles in [Double].
    - A [Map<string, number>] is a [gmap string Z]; a plain object is a
      [gmap string value] from property names to values.
    - A method that may [throw] returns a [result]; a method of [ApiHub],
      which owns mutable state, is a function from the state to a result
      and the state it leaves behind.
    - The listener's argument is an object of the browser library, which
      is not part of the sources.  [ApiHub.Response] holds what the
      listener reads of it, for any object; [ApiHub.playwright_response]
      is the object Playwright delivers. *)

From Stdlib Require Import ZArith String List DecimalString Lia Floats.
From stdpp Require Import base option gmap strings.

Local Set Warnings "-register-all".
Local Open Scope string_scope.
Local Open Scope Z_scope.

(** ** The fragment of JavaScript both classes rely on *)

Module JS.

(** Runtime values: what a parameter of type [any] can hold once a JSON
    body has been parsed, plus [undefined]. *)
Inductive value : Type :=
| Undefined
| Null
| Bool (b : bool)
| Num (n : Z)
| Str (s : string)
| Arr (elems : list value)
| Obj (props : gmap string value).

(** ToBoolean: what [!v], [v || d] and [v ? a : b] test. *)
Definition truthy (v : value) : bool :=
  match v with
  | Undefined | Null => false
  | Bool b => b
  | Num n => negb (n =? 0)
  | Str s => negb (String.eqb s "")
  | Arr _ | Obj _ => true
  end.

(** [v || d] *)
Definition or_else (v d : value) : value := if truthy v then v else d.

(** What a [throw] carries: [new Error(message)], or the [TypeError] the
    engine raises when a property of [null] or [undefined] is read, when
    something that is no function is called, or when an object cannot be
    converted to a primitive (its message is engine-specific and not
    modelled). *)
Inductive exn : Type :=
| Error (message : string)
| TypeError.

Inductive result (A : Type) : Type :=
| Ok (a : A)
| Throw (e : exn).
Arguments Ok {A} a.
Arguments Throw {A} e.

#[global] Instance result_ret : MRet result := fun A a => Ok a.
#[global] Instance result_bind : MBind result := fun A B k m =>
  match m with
  | Ok a => k a
  | Throw e => Throw e
  end.

(** Number::toString on an integer, in decimal.  This is what JavaScript
    prints for an integer of magnitude below 10^21; from there on it
    prints an exponent form, which is not modelled: no statement of this
    file depends on the text printed for such a number. *)
Definition number_to_string (n : Z) : string :=
  NilZero.string_of_int (Z.to_int n).

(** ToString, as applied by a template literal [`${v}`].  A plain object
    answers through [Object.prototype.toString] unless it carries an own
    [toString] property: no value of this model is callable, so the
    conversion then falls through to [valueOf], gets no primitive, and
    throws.  An array joins the conversions of its elements, [null] and
    [undefined] counting as empty. *)
Fixpoint to_string (v : value) : result string :=
  match v with
  | Undefined => Ok "undefined"
  | Null => Ok "null"
  | Bool true => Ok "true"
  | Bool false => Ok "false"
  | Num n => Ok (number_to_string n)
  | Str s => Ok s
  | Arr elems =>
      (fix join (l : list value) : result string :=
         match l with
         | [] => Ok ""
         | x :: rest =>
             match (match x with
                    | Undefined | Null => Ok ""
                    | _ => to_string x
                    end) with
             | Throw e => Throw e
             | Ok sx =>
                 match rest with
                 | [] => Ok sx
                 | _ :: _ =>
                     match join rest with
                     | Throw e => Throw e
                     | Ok srest => Ok (sx +:+ "," +:+ srest)
                     end
                 end
             end
         end) elems
  | Obj props =>
      match props !! "toString" with
      | Some _ => Throw TypeError
      | None => Ok "[object Object]"
      end
  end.

(** [s.startsWith(p)] *)
Fixpoint starts_with (p s : string) : bool :=
  match p, s with
  | EmptyString, _ => true
  | String _ _, EmptyString => false
  | String a p', String b s' => Ascii.eqb a b && starts_with p' s'
  end.

(** [s.includes(sub)]: [sub] occurs somewhere in [s]. *)
Fixpoint includes (sub s : string) : bool :=
  starts_with sub s ||
  match s with
  | EmptyString => false
  | String _ s' => includes sub s'
  end.

(** [xs.includes(v)] for an array literal of strings: SameValueZero
    makes only a string equal to one of the elements a member. *)
Definition array_includes (xs : list string) (v : value) : bool :=
  match v with
  | Str s => existsb (String.eqb s) xs
  | _ => false
  end.

(** [if (c) throw e;] *)
Definition throw_if (c : bool) (e : exn) : result unit :=
  if c then Throw e else Ok tt.

(** [data.p], for the property names the DTO reads ([id], [url],
    [provider], [generationTime], [metadata]): none of them is defined
    on the prototypes of strings, numbers, booleans or arrays, so only
    an object can answer with something else than [undefined]; reading
    a property of [null] or [undefined] throws. *)
Definition get (data : value) (p : string) : result value :=
  match data with
  | Undefined | Null => Throw TypeError
  | Obj props => Ok (default Undefined (props !! p))
  | Bool _ | Num _ | Str _ | Arr _ => Ok Undefined
  end.

End JS.

(** ** lib/ApiHub.ts *)

Module ApiHub.
Import JS.

(** A member of an object that the code calls: the object may not have
    it, or have something there that is no function, and the call then
    throws a [TypeError]; or it is a method, given by what it returns. *)
Inductive Member (A : Type) : Type :=
| NotCallable
| Method (returns : A).
Arguments NotCallable {A}.
Arguments Method {A} returns.

(** The listener's argument, as far as the listener uses it.  Types are
    erased at run time, so the argument is whatever object the page hands
    over:
    - [response.url()], the target URL;
    - [response.request().postDataBuffer], read without being called, of
      which only the truthiness is tested;
    - [response.timing], which the listener calls; the call may answer
      [null] or [undefined] ([None]) or an object with a [responseEnd]. *)
Record ResourceTiming : Type := { responseEnd : Z }.
Record Request : Type := { postDataBuffer : bool }.
Record Response : Type := {
  url : string;
  request : Request;
  timing : Member (option ResourceTiming)
}.

(** Modelled from Playwright's documented API (the package is not under
    [src/]; [ApiHub.ts] imports its [Page], whose ['response'] event
    delivers its [Response]).  That class has [url()] and [request()] and
    no [timing()]; [postDataBuffer] is a method of its [Request], so the
    property read at it is a function, which is truthy. *)
Definition playwright_response (target : string) : Response :=
  {| url := target;
     request := {| postDataBuffer := true |};
     timing := NotCallable |}.

(** [private requestTimings: Map<string, number> = new Map()] *)
Record t : Type := { requestTimings : gmap string Z }.

Definition new : t := {| requestTimings := ∅ |}.

(** Methods run against the instance and may throw. *)
Definition M (A : Type) : Type := t -> result A * t.

#[global] Instance M_ret : MRet M := fun A a h => (Ok a, h).
#[global] Instance M_bind : MBind M := fun A B k m h =>
  match m h with
  | (Ok a, h') => k a h'
  | (Throw e, h') => (Throw e, h')
  end.

Definition throw {A : Type} (e : exn) : M A := fun h => (Throw e, h).

(** [this.requestTimings.get(k)] *)
Definition timings_get (k : string) : M (option Z) :=
  fun h => (Ok (requestTimings h !! k), h).

(** [this.requestTimings.set(k, v)] *)
Definition timings_set (k : string) (v : Z) : M unit :=
  fun h => (Ok tt, {| requestTimings := <[k := v]> (requestTimings h) |}).

Definition exec {A : Type} (m : M A) (h : t) : t := snd (m h).
Definition eval {A : Type} (m : M A) (h : t) : result A := fst (m h).

(** [x || 0] where [x] is a number or [undefined]. *)
Definition or_zero (x : option Z) : Z :=
  match x with
  | Some n => if n =? 0 then 0 else n
  | None => 0
  end.

(** [response.timing()?.responseEnd] *)
Definition timing_responseEnd (response : Response) : M (option Z) :=
  match timing response with
  | NotCallable => throw TypeError
  | Method returns => mret (responseEnd <$> returns)
  end.

(** The listener [setupInterception] registers with
    [page.on('response', ...)].  Its body has no [await]: it runs for
    each delivered response until it returns or throws; what it wrote
    before a throw stays written. *)
Definition on_response (response : Response) : M unit :=
  let url := url response in
  _ ← (if includes "/api/chat/messages" url then
         timing ← (if postDataBuffer (request response)
                   then timing_responseEnd response
                   else mret (Some 0));
         timings_set "chat_latency" (or_zero timing)
       else mret tt);
  if includes "/api/images/generate" url then
    measured ← timing_responseEnd response;
    let timing := or_zero measured in
    timings_set "image_generation_latency" (or_zero (Some timing))
  else mret tt.

(** The page, as far as the hub uses it: the listeners registered with
    [page.on('response', ...)], called in registration order with each
    response. *)
Record Page : Type := { response_listeners : list (Response -> M unit) }.

Definition blank_page : Page := {| response_listeners := [] |}.

(** [setupInterception(page)] *)
Definition setupInterception (page : Page) : Page :=
  {| response_listeners := response_listeners page ++ [on_response] |}.

(** The page emits one response: every listener handles it.  A listener
    is an [async] function: when it throws, its promise is rejected and
    nothing reaches the page or the next listener. *)
Definition emit (page : Page) (response : Response) (h : t) : t :=
  foldl (fun h listener => exec (listener response) h) h
        (response_listeners page).

(** The responses the page delivers during a session, in delivery
    order. *)
Definition deliver (page : Page) (responses : list Response) (h : t) : t :=
  foldl (fun h response => emit page response h) h responses.

(** [getLatency(endpoint)] *)
Definition getLatency (endpoint : string) : M Z :=
  v ← timings_get endpoint;
  mret (or_zero v).

(** [assertLatencyWithin(endpoint, maxMs)] *)
Definition assertLatencyWithin (endpoint : string) (maxMs : Z) : M unit :=
  actual ← getLatency endpoint;
  if actual >? maxMs then
    throw (Error ("[LATENCY SLA VIOLATION] Endpoint: " +:+ endpoint +:+
                  " took " +:+ number_to_string actual +:+
                  "ms (max: " +:+ number_to_string maxMs +:+ "ms)"))
  else mret tt.

End ApiHub.

(** ** The SLA check over IEEE doubles

    [getLatency] and [assertLatencyWithin] once more, with the numbers
    JavaScript computes with: binary64 values, compared and subtracted as
    the processor does.  [Number::toString], the text a template literal
    prints for a number, is a built-in that is not modelled: it is the
    parameter [Number_toString]. *)

Module Double.
Import JS.

(** [private requestTimings: Map<string, number>] *)
Record t : Type := { requestTimings : gmap string float }.

(** The numbers [!x] holds for: [0], [-0] and [NaN]. *)
Definition falsy (x : float) : bool := (x =? 0)%float || is_nan x.

(** [x || 0] where [x] is a number or [undefined]. *)
Definition or_zero (x : option float) : float :=
  match x with
  | Some v => if falsy v then 0%float else v
  | None => 0%float
  end.

(** [getLatency(endpoint)] *)
Definition getLatency (endpoint : string) (h : t) : float :=
  or_zero (requestTimings h !! endpoint).

(** [assertLatencyWithin(endpoint, maxMs)]: what it returns or throws,
    and the hub it leaves. *)
Definition assertLatencyWithin
    (Number_toString : float -> string)
    (endpoint : string) (maxMs : float) (h : t) : result unit * t :=
  let actual := getLatency endpoint h in
  if (maxMs <? actual)%float then
    (Throw (Error ("[LATENCY SLA VIOLATION] Endpoint: " +:+ endpoint +:+
                   " took " +:+ Number_toString actual +:+
                   "ms (max: " +:+ Number_toString maxMs +:+ "ms)")), h)
  else (Ok tt, h).


End Double.

(** ** The ImageAssetDTO class *)

Module ImageAssetDTO.
Import JS.

Record t : Type := {
  id : value;
  url : value;
  provider : value;
  generationTime : value;
  metadata : value
}.

(** [{ width: 1024, height: 1024, quality: 'premium' }] *)
Definition default_metadata : value :=
  Obj (<["width" := Num 1024]>
       (<["height" := Num 1024]>
        (<["quality" := Str "premium"]> ∅))).

(** [constructor(data: any)] *)
Definition constructor (data : value) : result t :=
  id0 ← get data "id";
  _ ← throw_if (negb (truthy id0))
        (Error "ImageAsset missing required field: id");
  url0 ← get data "url";
  _ ← throw_if (negb (truthy url0))
        (Error "ImageAsset missing required field: url");
  provider0 ← get data "provider";
  _ ← throw_if (negb (truthy provider0))
        (Error "ImageAsset missing required field: provider");
  provider1 ← get data "provider";
  _ ← (if negb (array_includes ["openai"; "stability-ai"; "midjourney"]
                               provider1)
       then
         provider2 ← get data "provider";
         rendered ← to_string provider2;
         Throw (Error ("ImageAsset has invalid provider: " +:+ rendered))
       else mret tt);
  id1 ← get data "id";
  url1 ← get data "url";
  provider3 ← get data "provider";
  generationTime0 ← get data "generationTime";
  metadata0 ← get data "metadata";
  mret {| id := id1;
          url := url1;
          provider := provider3;
          generationTime := or_else generationTime0 (Num 0);
          metadata := or_else metadata0 default_metadata |}.

(** [isFromAuthorizedProvider()] *)
Definition isFromAuthorizedProvider (this : t) : bool :=
  let authorizedProviders := ["openai"; "stability-ai"] in
  array_includes authorizedProviders (provider this).

End ImageAssetDTO.

(** ** Vocabulary of the specification

    The specification speaks of observation rules, of the channel a rule
    writes, of the ordered checks of the validator and of the raw form of
    an entity.  These definitions give the words a meaning over the
    embedding above, so that its theorems can be stated in them. *)

Module Contract.
Import JS.

(** An observation rule: (URL substring, channel name).  The listener
    hard-codes two of them, in this order. *)
Definition rules : list (string * string) :=
  [ ("/api/chat/messages", "chat_latency");
    ("/api/images/generate", "image_generation_latency") ].

Definition matches (response : ApiHub.Response) (rule : string * string) : bool :=
  includes (fst rule) (ApiHub.url response).

(** The rules an event matches, in registration order, and their channels. *)
Definition matching_rules (response : ApiHub.Response) : list (string * string) :=
  List.filter (matches response) rules.

Definition matched_channels (response : ApiHub.Response) : list string :=
  List.map snd (matching_rules response).

(** A response, as Playwright delivers it, that every rule matches. *)
Definition ambiguous_response : ApiHub.Response :=
  ApiHub.playwright_response
    "https://app.example.com/api/chat/messages?then=/api/images/generate".

(** An image-generation response, as Playwright delivers it. *)
Definition image_response : ApiHub.Response :=
  ApiHub.playwright_response "https://app.example.com/api/images/generate".

(** A response object that does offer [timing()], for an image
    generation, whose transport reports [responseEnd] as -1. *)
Definition unavailable_end_response : ApiHub.Response :=
  {| ApiHub.url := "https://app.example.com/api/images/generate";
     ApiHub.request := {| ApiHub.postDataBuffer := true |};
     ApiHub.timing := ApiHub.Method (Some {| ApiHub.responseEnd := -1 |}) |}.

(** What the listener writes while it handles a response: the samples it
    sets, by channel, until it returns or throws. *)
Definition writes (response : ApiHub.Response) : gmap string Z :=
  ApiHub.requestTimings
    (ApiHub.exec (ApiHub.on_response response) ApiHub.new).

(** A session: the hub listens on a page that then delivers responses. *)
Definition observe (responses : list ApiHub.Response) : ApiHub.t :=
  ApiHub.deliver (ApiHub.setupInterception ApiHub.blank_page) responses
                 ApiHub.new.

(** [s] contains [sub]. *)
Definition contains (s sub : string) : Prop :=
  exists pre post : string, s = pre +:+ sub +:+ post.

(** The value of property [p] of a payload, [undefined] when the payload
    has no such property or is not an object at all. *)
Definition field (data : value) (p : string) : value :=
  match data with
  | Obj props => default Undefined (props !! p)
  | _ => Undefined
  end.

(** The enumerated provider set. *)
Definition provider_set : list string :=
  ["openai"; "stability-ai"; "midjourney"].

(** The validator's checks, in their fixed order. *)
Inductive check : Type :=
| IdPresent
| UrlPresent
| ProviderPresent
| ProviderEnumerated.

Definition check_order : list check :=
  [IdPresent; UrlPresent; ProviderPresent; ProviderEnumerated].

(** A field is present when it is truthy, which is what the constructor
    tests with [!data.id]; the provider is enumerated when the array of
    provider tags includes it. *)
Definition passes (data : value) (c : check) : bool :=
  match c with
  | IdPresent => truthy (field data "id")
  | UrlPresent => truthy (field data "url")
  | ProviderPresent => truthy (field data "provider")
  | ProviderEnumerated => array_includes provider_set (field data "provider")
  end.

Definition first_failing_check (data : value) : option check :=
  List.find (fun c => negb (passes data c)) check_order.

(** The check an error reports: each presence check has its own message,
    and the membership check the messages that start with its prefix. *)
Definition reported_check (e : exn) : option check :=
  match e with
  | TypeError => None
  | Error message =>
      if String.eqb message "ImageAsset missing required field: id"
      then Some IdPresent
      else if String.eqb message "ImageAsset missing required field: url"
      then Some UrlPresent
      else if String.eqb message "ImageAsset missing required field: provider"
      then Some ProviderPresent
      else if starts_with "ImageAsset has invalid provider: " message
      then Some ProviderEnumerated
      else None
  end.

(** A value a template literal can print. *)
Definition renderable (v : value) : Prop :=
  exists text, to_string v = Ok text.

(** A payload whose provider, a valid JSON object, carries a property
    named [toString]. *)
Definition unprintable_provider_payload : value :=
  Obj (<["id" := Str "x"]>
       (<["url" := Str "y"]>
        (<["provider" := Obj (<["toString" := Num 1]> ∅)]> ∅))).

(** All four checks pass. *)
Definition required_fields_validate (data : value) : Prop :=
  forall c : check, passes data c = true.

(** The entity a payload that passes every check is turned into. *)
Definition entity_of (data : value) : ImageAssetDTO.t :=
  {| ImageAssetDTO.id := field data "id";
     ImageAssetDTO.url := field data "url";
     ImageAssetDTO.provider := field data "provider";
     ImageAssetDTO.generationTime := or_else (field data "generationTime") (Num 0);
     ImageAssetDTO.metadata :=
       or_else (field data "metadata") ImageAssetDTO.default_metadata |}.

(** The raw form of an entity: the object holding its five fields. *)
Definition to_raw (entity : ImageAssetDTO.t) : value :=
  Obj (<["id" := ImageAssetDTO.id entity]>
       (<["url" := ImageAssetDTO.url entity]>
        (<["provider" := ImageAssetDTO.provider entity]>
         (<["generationTime" := ImageAssetDTO.generationTime entity]>
          (<["metadata" := ImageAssetDTO.metadata entity]> ∅))))).

(** An object literal. *)
Definition object (properties : list (string * value)) : value :=
  Obj (list_to_map properties).

End Contract.

(** ** The UserFactory class *)

Module UserFactory.

(** The parameter type of [create]: ['premium' | 'free' | 'admin']. *)
Inductive UserType : Type :=
| premium
| free
| admin.

(** The string each literal of the union is. *)
Definition literal (userType : UserType) : string :=
  match userType with
  | premium => "premium"
  | free => "free"
  | admin => "admin"
  end.

Record TestUser : Type := {
  email : string;
  password : string;
  userId : string;
  plan : string;
  credits : Z
}.

(** The table [users] that [create] builds on every call. *)
Definition users : gmap string TestUser :=
  <["premium" := {| email := "premium-user@everai.test";
                    password := "SecurePassword123!";
                    userId := "user_premium_001";
                    plan := "premium";
                    credits := 5000 |}]>
  (<["free" := {| email := "free-user@everai.test";
                  password := "SecurePassword123!";
                  userId := "user_free_001";
                  plan := "free";
                  credits := 10 |}]>
   (<["admin" := {| email := "admin@everai.test";
                    password := "AdminPassword123!";
                    userId := "user_admin_001";
                    plan := "admin";
                    credits := 10000 |}]> ∅)).

(** [static create(userType)]: [users[userType]], which is [undefined]
    ([None]) for a key the table lacks. *)
Definition create (userType : UserType) : option TestUser :=
  users !! literal userType.

End UserFactory.

(** ** Responses and payloads used as instances *)

Module Scenario.
Import JS.

(** A response object that offers [timing()]: a chat response measured
    at [ms] milliseconds. *)
Definition chat_response (ms : Z) : ApiHub.Response :=
  {| ApiHub.url := "https://app.example.com/api/chat/messages";
     ApiHub.request := {| ApiHub.postDataBuffer := true |};
     ApiHub.timing := ApiHub.Method (Some {| ApiHub.responseEnd := ms |}) |}.

(** An image-generation response whose [timing()] answers [null]. *)
Definition untimed_image_response : ApiHub.Response :=
  {| ApiHub.url := "https://app.example.com/api/images/generate";
     ApiHub.request := {| ApiHub.postDataBuffer := false |};
     ApiHub.timing := ApiHub.Method None |}.

(** A response no rule is interested in. *)
Definition stylesheet_response : ApiHub.Response :=
  {| ApiHub.url := "https://app.example.com/static/app.css";
     ApiHub.request := {| ApiHub.postDataBuffer := false |};
     ApiHub.timing := ApiHub.Method (Some {| ApiHub.responseEnd := 35 |}) |}.

(** The property names the constructor reads. *)
Definition dto_properties : list string :=
  ["id"; "url"; "provider"; "generationTime"; "metadata"].

(** A payload with the three required fields and nothing else. *)
Definition minimal_payload : gmap string value :=
  <["id" := Str "x"]> (<["url" := Str "y"]> (<["provider" := Str "openai"]> ∅)).

End Scenario.

(** ** Facts about the JavaScript fragment *)

Section JSFacts.
Import JS.

Lemma append_cons (a : Ascii.ascii) (s u : string) :
  String a s +:+ u = String a (s +:+ u).
Proof. reflexivity. Qed.


Lemma starts_with_app (p s : string) : starts_with p (p +:+ s) = true.
Proof.
  induction p as [|a p IH]; [reflexivity|].
  rewrite append_cons. simpl. rewrite Ascii.eqb_refl. exact IH.
Qed.

Lemma starts_with_split (p s : string) :
  starts_with p s = true -> exists post, s = p +:+ post.
Proof.
  revert s. induction p as [|a p IH]; intros s H.
  - exists s. reflexivity.
  - destruct s as [|b s]; [discriminate|]. simpl in H.
    apply andb_prop in H as [Hab Hps].
    apply Ascii.eqb_eq in Hab as ->.
    destruct (IH s Hps) as [post ->]. exists post. reflexivity.
Qed.

Lemma includes_here (sub s : string) :
  starts_with sub s = true -> includes sub s = true.
Proof. intros H. destruct s; simpl; rewrite H; reflexivity. Qed.

Lemma includes_middle (pre sub post : string) :
  includes sub (pre +:+ sub +:+ post) = true.
Proof.
  induction pre as [|a pre IH].
  - apply includes_here. change ("" +:+ sub +:+ post) with (sub +:+ post).
    apply starts_with_app.
  - rewrite append_cons. simpl. rewrite IH. apply orb_true_r.
Qed.

(** [includes] is the substring test. *)
Lemma includes_contains (sub s : string) :
  includes sub s = true <-> Contract.contains s sub.
Proof.
  split.
  - induction s as [|a s IH]; simpl; intros H.
    + rewrite orb_false_r in H. apply starts_with_split in H as [post ->].
      exists "", post. reflexivity.
    + apply orb_prop in H as [H|H].
      * apply starts_with_split in H as [post Hpost].
        exists "", post. exact Hpost.
      * destruct (IH H) as (pre & post & ->).
        exists (String a pre), post. reflexivity.
  - intros (pre & post & ->). apply includes_middle.
Qed.

(** On integers [n || 0] is [n]: zero is the only falsy one. *)
Lemma or_zero_id (n : Z) : (if n =? 0 then 0 else n) = n.
Proof. destruct (Z.eqb_spec n 0); congruence. Qed.

Lemma or_zero_Some (n : Z) : ApiHub.or_zero (Some n) = n.
Proof. apply or_zero_id. Qed.

Lemma truthy_or_else (v d : value) : truthy v = true -> or_else v d = v.
Proof. unfold or_else. by intros ->. Qed.

Lemma array_includes_Str (xs : list string) (v : value) :
  array_includes xs v = true <-> exists s, v = Str s /\ In s xs.
Proof.
  split.
  - destruct v; simpl; try discriminate. intros H.
    apply existsb_exists in H as (x & Hx & Heq).
    apply String.eqb_eq in Heq as ->. eauto.
  - intros (s & -> & Hin). simpl. apply existsb_exists.
    exists s. split; [exact Hin | apply String.eqb_refl].
Qed.

Lemma array_includes_truthy (xs : list string) (v : value) :
  ~ In "" xs -> array_includes xs v = true -> truthy v = true.
Proof.
  intros Hne H. apply array_includes_Str in H as (s & -> & Hin).
  simpl. destruct s; [contradiction | reflexivity].
Qed.

End JSFacts.

(** ** The latency ledger and its listener *)

Section ApiHubFacts.
Import JS ApiHub Contract.

Lemma hub_eq (h1 h2 : t) : requestTimings h1 = requestTimings h2 -> h1 = h2.
Proof. destruct h1, h2. simpl. by intros ->. Qed.

(** The listener only adds its writes to the ledger it finds. *)
Lemma on_response_writes (response : Response) (h : t) :
  requestTimings (exec (on_response response) h) =
  writes response ∪ requestTimings h.
Proof.
  unfold writes, on_response, exec, timing_responseEnd.
  unfold mbind, M_bind, mret, M_ret, timings_set, throw, new.
  destruct (includes "/api/chat/messages" (url response));
    destruct (includes "/api/images/generate" (url response));
    destruct (postDataBuffer (request response));
    destruct (timing response) as [|returns]; simpl;
    rewrite <- ?insert_union_l, (left_id_L ∅ (∪)); reflexivity.
Qed.

Lemma matched_channels_eq (response : Response) :
  matched_channels response =
    ((if includes "/api/chat/messages" (url response)
      then ["chat_latency"] else []) ++
     (if includes "/api/images/generate" (url response)
      then ["image_generation_latency"] else []))%list.
Proof.
  unfold matched_channels, matching_rules, rules, matches. simpl.
  destruct (includes "/api/chat/messages" (url response));
    destruct (includes "/api/images/generate" (url response)); reflexivity.
Qed.

(** The listener writes no channel but those of the rules that match. *)
Lemma writes_matched (response : Response) (channel : string) (v : Z) :
  writes response !! channel = Some v ->
  channel ∈ matched_channels response.
Proof.
  rewrite matched_channels_eq.
  unfold writes, on_response, exec, timing_responseEnd.
  unfold mbind, M_bind, mret, M_ret, timings_set, throw, new.
  destruct (includes "/api/chat/messages" (url response));
    destruct (includes "/api/images/generate" (url response));
    destruct (postDataBuffer (request response));
    destruct (timing response) as [|returns]; simpl;
    rewrite ?lookup_insert, ?lookup_empty; repeat case_decide;
    intros ?; simplify_eq; set_unfold; tauto.
Qed.

Lemma writes_unmatched (response : Response) (channel : string) :
  channel ∉ matched_channels response -> writes response !! channel = None.
Proof.
  intros Hout. destruct (writes response !! channel) as [v|] eqn:Hw;
    [|reflexivity].
  by apply writes_matched in Hw.
Qed.

(** Reading a channel after one response: what the listener wrote there,
    or else what the channel held before. *)
Lemma on_response_lookup (response : Response) (h : t) (channel : string) :
  requestTimings (exec (on_response response) h) !! channel =
    match writes response !! channel with
    | Some v => Some v
    | None => requestTimings h !! channel
    end.
Proof.
  rewrite on_response_writes, lookup_union.
  destruct (writes response !! channel), (requestTimings h !! channel);
    reflexivity.
Qed.

Lemma on_response_unmatched (response : Response) (h : t) (channel : string) :
  channel ∉ matched_channels response ->
  requestTimings (exec (on_response response) h) !! channel =
  requestTimings h !! channel.
Proof.
  intros Hout. by rewrite on_response_lookup, writes_unmatched.
Qed.

(** On a response as Playwright delivers it, a matching rule makes the
    listener call [response.timing], which is no function. *)
Lemma on_response_playwright (target : string) (h : t) :
  on_response (playwright_response target) h =
    if includes "/api/chat/messages" target
       || includes "/api/images/generate" target
    then (Throw TypeError, h)
    else (Ok tt, h).
Proof.
  unfold on_response, timing_responseEnd, playwright_response.
  unfold mbind, M_bind, mret, M_ret, throw. simpl.
  destruct (includes "/api/chat/messages" target);
    destruct (includes "/api/images/generate" target); reflexivity.
Qed.

Lemma emit_setupInterception (response : Response) (h : t) :
  emit (setupInterception blank_page) response h =
  exec (on_response response) h.
Proof. reflexivity. Qed.

Lemma observe_snoc (responses : list Response) (response : Response) :
  observe (responses ++ [response]) =
  exec (on_response response) (observe responses).
Proof.
  unfold observe, deliver. rewrite foldl_snoc.
  apply emit_setupInterception.
Qed.

(** A channel no delivered response matched is absent from the ledger. *)
Lemma observe_absent (responses : list Response) (channel : string) :
  Forall (fun response => channel ∉ matched_channels response) responses ->
  requestTimings (observe responses) !! channel = None.
Proof.
  induction responses as [|response responses IH] using rev_ind; intros Hall.
  - unfold observe. simpl. apply lookup_empty.
  - apply Forall_app in Hall as [Hrs Hr]. rewrite observe_snoc.
    inversion Hr; subst. rewrite on_response_unmatched by assumption.
    by apply IH.
Qed.

Lemma getLatency_run (endpoint : string) (h : t) :
  getLatency endpoint h = (Ok (or_zero (requestTimings h !! endpoint)), h).
Proof. reflexivity. Qed.

Lemma assertLatencyWithin_run (endpoint : string) (maxMs : Z) (h : t) :
  assertLatencyWithin endpoint maxMs h =
    let actual := or_zero (requestTimings h !! endpoint) in
    (if actual >? maxMs
     then Throw (Error ("[LATENCY SLA VIOLATION] Endpoint: " +:+ endpoint +:+
                        " took " +:+ number_to_string actual +:+
                        "ms (max: " +:+ number_to_string maxMs +:+ "ms)"))
     else Ok tt, h).
Proof.
  unfold assertLatencyWithin, mbind, M_bind. rewrite getLatency_run. simpl.
  destruct (_ >? _); reflexivity.
Qed.



End ApiHubFacts.

(** ** Properties of the event classifier, the ledger and the SLA check *)

Section ApiHubClaims.
Import JS ApiHub Contract.

(** C1, on the code.  A response as Playwright delivers it whose URL
    contains both rule substrings matches both rules, the chat rule
    first; the listener then calls [response.timing], which is no
    function, and throws before it has set any channel: the hub is left
    as it was, and nothing is written under the first rule's channel. *)
Theorem ambiguous_response_writes_nothing (target : string) (h : t) :
  includes "/api/chat/messages" target = true ->
  includes "/api/images/generate" target = true ->
  head (matching_rules (playwright_response target)) =
    Some ("/api/chat/messages", "chat_latency") /\
  on_response (playwright_response target) h = (Throw TypeError, h).
Proof.
  intros Hchat Himage. split.
  - unfold matching_rules, rules, matches, playwright_response. simpl.
    by rewrite Hchat.
  - rewrite on_response_playwright. by rewrite Hchat.
Qed.

(** The ambiguous response on a fresh hub. *)
Lemma ambiguous_response_writes_nothing_witness :
  head (matching_rules ambiguous_response) =
    Some ("/api/chat/messages", "chat_latency") /\
  on_response ambiguous_response new = (Throw TypeError, new).
Proof.
  apply (ambiguous_response_writes_nothing
           "https://app.example.com/api/chat/messages?then=/api/images/generate"
           new); reflexivity.
Defined.



(** C5.  A channel that no delivered response has written reads as 0,
    and asserting any non-negative budget on it does not throw. *)
Theorem never_observed_channel
    (responses : list Response) (channel : string) (budget : Z) :
  Forall (fun response => channel ∉ matched_channels response) responses ->
  0 <= budget ->
  eval (getLatency channel) (observe responses) = Ok 0 /\
  eval (assertLatencyWithin channel budget) (observe responses) = Ok tt.
Proof.
  intros Hnever Hbudget. unfold eval.
  rewrite assertLatencyWithin_run, getLatency_run.
  rewrite (observe_absent _ _ Hnever). cbn [fst or_zero].
  split; [reflexivity|].
  destruct (Z.gtb_spec 0 budget); [lia | reflexivity].
Qed.

(** The chat channel after a session that only saw an image response. *)
Lemma never_observed_channel_witness :
  eval (getLatency "chat_latency") (observe [unavailable_end_response]) = Ok 0 /\
  eval (assertLatencyWithin "chat_latency" 0)
       (observe [unavailable_end_response]) = Ok tt.
Proof.
  apply (never_observed_channel [unavailable_end_response] "chat_latency" 0).
  - constructor; [|constructor].
    apply (bool_decide_unpack _). vm_compute. exact I.
  - lia.
Defined.

(** C9, on the code.  For a response as Playwright delivers it, no timing
    information is to be had from the response, and a rule matches: the
    listener throws a [TypeError] at [response.timing()] and the rule's
    channel holds what it held before, so on a fresh hub it stays unset
    instead of becoming present with the sample 0. *)
Theorem matched_response_leaves_channel_unset
    (target : string) (h : t) (channel : string) :
  channel ∈ matched_channels (playwright_response target) ->
  eval (on_response (playwright_response target)) h = Throw TypeError /\
  requestTimings (exec (on_response (playwright_response target)) h)
    !! channel = requestTimings h !! channel.
Proof.
  intros Hin. unfold eval, exec. rewrite on_response_playwright.
  rewrite matched_channels_eq in Hin. simpl in Hin.
  destruct (includes "/api/chat/messages" target);
    destruct (includes "/api/images/generate" target); simpl;
    try (split; reflexivity).
  by apply elem_of_nil in Hin.
Qed.

(** The image response on a fresh hub. *)
Lemma matched_response_leaves_channel_unset_witness :
  eval (on_response image_response) new = Throw TypeError /\
  requestTimings (exec (on_response image_response) new)
    !! "image_generation_latency" = None.
Proof.
  apply (matched_response_leaves_channel_unset
           "https://app.example.com/api/images/generate" new
           "image_generation_latency").
  apply (bool_decide_unpack _). vm_compute. exact I.
Defined.

(** A response object that does offer [timing()] and reports
    [responseEnd] as -1, the "not available" mark of resource timings,
    gets -1 stored: [x || 0] replaces falsy values only. *)
Lemma unavailable_end_is_stored :
  requestTimings (observe [unavailable_end_response])
    !! "image_generation_latency" = Some (-1).
Proof. reflexivity. Qed.

End ApiHubClaims.

(** ** The validating constructor *)

Section ImageAssetDTOFacts.
Import JS ImageAssetDTO Contract.

Lemma get_field (data : value) (p : string) :
  data <> Null -> data <> Undefined -> get data p = Ok (field data p).
Proof. destruct data; intros; try reflexivity; congruence. Qed.

Lemma constructor_nullish (data : value) :
  data = Null \/ data = Undefined -> constructor data = Throw TypeError.
Proof. intros [-> | ->]; reflexivity. Qed.

(** The constructor on anything but [null] and [undefined]: the four
    checks in order, then the assignments. *)
Lemma constructor_cascade (data : value) :
  data <> Null -> data <> Undefined ->
  constructor data =
    if negb (passes data IdPresent)
    then Throw (Error "ImageAsset missing required field: id")
    else if negb (passes data UrlPresent)
    then Throw (Error "ImageAsset missing required field: url")
    else if negb (passes data ProviderPresent)
    then Throw (Error "ImageAsset missing required field: provider")
    else if negb (passes data ProviderEnumerated)
    then match to_string (field data "provider") with
         | Ok rendered =>
             Throw (Error ("ImageAsset has invalid provider: " +:+ rendered))
         | Throw e => Throw e
         end
    else Ok (entity_of data).
Proof.
  intros Hnull Hundef. unfold constructor.
  rewrite !(get_field data _ Hnull Hundef).
  unfold passes, provider_set.
  unfold mbind, result_bind, mret, result_ret, throw_if.
  destruct (truthy (field data "id")); [|reflexivity].
  destruct (truthy (field data "url")); [|reflexivity].
  destruct (truthy (field data "provider")); [|reflexivity].
  destruct (array_includes _ (field data "provider")); [reflexivity|].
  simpl. by destruct (to_string (field data "provider")).
Qed.

(** A payload passing the checks is an object, and is accepted. *)
Lemma required_fields_not_nullish (data : value) :
  required_fields_validate data -> data <> Null /\ data <> Undefined.
Proof.
  intros Hreq. specialize (Hreq IdPresent).
  split; intros ->; discriminate.
Qed.

Lemma constructor_accepts (data : value) :
  required_fields_validate data -> constructor data = Ok (entity_of data).
Proof.
  intros Hreq. destruct (required_fields_not_nullish data Hreq).
  rewrite constructor_cascade by assumption.
  by rewrite !Hreq.
Qed.

(** Conversely an accepted payload passed every check. *)
Lemma constructor_Ok_inv (data : value) (entity : t) :
  constructor data = Ok entity ->
  required_fields_validate data /\ entity = entity_of data.
Proof.
  intros Hok.
  assert (data <> Null /\ data <> Undefined) as [Hnull Hundef].
  { split; intros ->; discriminate. }
  rewrite constructor_cascade in Hok by assumption.
  destruct (passes data IdPresent) eqn:H1; [|discriminate].
  destruct (passes data UrlPresent) eqn:H2; [|discriminate].
  destruct (passes data ProviderPresent) eqn:H3; [|discriminate].
  destruct (passes data ProviderEnumerated) eqn:H4;
    [|simpl in Hok; destruct (to_string _); discriminate].
  simpl in Hok. split; [by intros [] | congruence].
Qed.

(** An error with the membership check's prefix reports that check,
    whatever follows the prefix. *)
Lemma reported_check_invalid_provider (rendered : string) :
  reported_check (Error ("ImageAsset has invalid provider: " +:+ rendered))
  = Some ProviderEnumerated.
Proof.
  unfold reported_check. rewrite starts_with_app.
  rewrite !append_cons. reflexivity.
Qed.

(** What [find] finds is the first element that satisfies the test. *)
Lemma find_first {A : Type} (f : A -> bool) (l : list A) (x : A) :
  List.find f l = Some x ->
  f x = true /\
  exists before after, l = (before ++ x :: after)%list /\
                       Forall (fun y => f y = false) before.
Proof.
  induction l as [|y l IH]; simpl; [discriminate|].
  destruct (f y) eqn:Hy.
  - intros [= ->]. split; [exact Hy|]. exists [], l. by split.
  - intros Hfind. destruct (IH Hfind) as (Hx & before & after & -> & Hall).
    split; [exact Hx|]. exists (y :: before), after. split; [reflexivity|].
    by constructor.
Qed.

Lemma first_failing_check_cascade (data : value) :
  first_failing_check data =
    if negb (passes data IdPresent) then Some IdPresent
    else if negb (passes data UrlPresent) then Some UrlPresent
    else if negb (passes data ProviderPresent) then Some ProviderPresent
    else if negb (passes data ProviderEnumerated) then Some ProviderEnumerated
    else None.
Proof. reflexivity. Qed.

Lemma to_raw_fields (entity : t) :
  field (to_raw entity) "id" = id entity /\
  field (to_raw entity) "url" = url entity /\
  field (to_raw entity) "provider" = provider entity /\
  field (to_raw entity) "generationTime" = generationTime entity /\
  field (to_raw entity) "metadata" = metadata entity.
Proof. repeat split. Qed.

Lemma or_else_idem (v d : value) : or_else (or_else v d) d = or_else v d.
Proof.
  unfold or_else. destruct (truthy v) eqn:Hv.
  - by rewrite Hv.
  - by destruct (truthy d).
Qed.

End ImageAssetDTOFacts.

(** ** Properties of the schema validator and the policy evaluator *)

Section ImageAssetDTOClaims.
Import JS ImageAssetDTO Contract.

(** C2, as stated, fails.  The payload [null] is neither accepted nor
    rejected with the violation of a check: reading [data.id] throws a
    [TypeError] before the first check is evaluated, although the first
    failing check for it would be the identifier's.  So does a payload
    whose provider is an object with a [toString] property: the
    membership check is the first to fail, and rendering the provider
    for its message throws a [TypeError], which reports no check. *)
Lemma payloads_without_schema_violation :
  first_failing_check Null = Some IdPresent /\
  constructor Null = Throw TypeError /\
  first_failing_check unprintable_provider_payload = Some ProviderEnumerated /\
  constructor unprintable_provider_payload = Throw TypeError /\
  reported_check TypeError = None.
Proof. repeat split. Qed.

(** C2, amended.  For every payload other than [null] and [undefined]
    whose provider can be rendered as a string when it is the membership
    check that fails first, the constructor accepts the payload when no
    check fails, and otherwise throws an error that reports the first
    failing check in the order identifier, url, provider present,
    provider enumerated: that check fails, every check before it passes,
    and the error reports that check and no other.  For a provider that
    is a string the message ends with that string. *)
Theorem constructor_first_failing_check (data : value) :
  data <> Null -> data <> Undefined ->
  (first_failing_check data = Some ProviderEnumerated ->
     renderable (field data "provider")) ->
  match first_failing_check data with
  | None => constructor data = Ok (entity_of data)
  | Some c =>
      passes data c = false /\
      (exists before after,
         check_order = (before ++ c :: after)%list /\
         Forall (fun c' => passes data c' = true) before) /\
      (exists e,
         constructor data = Throw e /\
         reported_check e = Some c /\
         (forall c', reported_check e = Some c' -> c' = c) /\
         (forall s, c = ProviderEnumerated ->
                    field data "provider" = Str s ->
                    e = Error ("ImageAsset has invalid provider: " +:+ s)))
  end.
Proof.
  intros Hnull Hundef Hrender.
  pose proof (constructor_cascade data Hnull Hundef) as Hrun.
  destruct (first_failing_check data) as [c|] eqn:Hfirst.
  - assert (exists e, constructor data = Throw e /\
                      reported_check e = Some c /\
                      (forall s, c = ProviderEnumerated ->
                                 field data "provider" = Str s ->
                                 e = Error ("ImageAsset has invalid provider: "
                                            +:+ s))) as (e & Hthrow & Hrep & Hstr).
    { rewrite Hrun. pose proof Hfirst as Hcase.
      rewrite first_failing_check_cascade in Hcase.
      destruct (passes data IdPresent); cbn [negb] in *;
        [|injection Hcase as <-; eexists; repeat split; done].
      destruct (passes data UrlPresent); cbn [negb] in *;
        [|injection Hcase as <-; eexists; repeat split; done].
      destruct (passes data ProviderPresent); cbn [negb] in *;
        [|injection Hcase as <-; eexists; repeat split; done].
      destruct (passes data ProviderEnumerated); cbn [negb] in *;
        [discriminate|]. injection Hcase as <-.
      destruct (Hrender eq_refl) as [text Htext]. rewrite Htext.
      eexists. split; [reflexivity|].
      split; [apply reported_check_invalid_provider|].
      intros s _ Hs. rewrite Hs in Htext. simpl in Htext. congruence. }
    apply find_first in Hfirst as (Hfail & before & after & Horder & Hall).
    split; [by apply negb_true_iff|]. split.
    + exists before, after. split; [exact Horder|].
      eapply Forall_impl; [exact Hall|].
      intros c' Hc'. by apply negb_false_iff.
    + exists e. repeat split; try assumption. congruence.
  - rewrite Hrun. rewrite first_failing_check_cascade in Hfirst.
    destruct (passes data IdPresent); cbn [negb] in *; [|congruence].
    destruct (passes data UrlPresent); cbn [negb] in *; [|congruence].
    destruct (passes data ProviderPresent); cbn [negb] in *; [|congruence].
    destruct (passes data ProviderEnumerated); cbn [negb] in *; congruence.
Qed.

(** Required fields present, provider outside the enumeration. *)
Lemma constructor_first_failing_check_witness :
  constructor (object [("id", Str "x"); ("url", Str "y");
                       ("provider", Str "unknown-vendor")])
  = Throw (Error "ImageAsset has invalid provider: unknown-vendor").
Proof.
  pose proof (constructor_first_failing_check
                (object [("id", Str "x"); ("url", Str "y");
                         ("provider", Str "unknown-vendor")])) as H.
  assert (first_failing_check
            (object [("id", Str "x"); ("url", Str "y");
                     ("provider", Str "unknown-vendor")])
          = Some ProviderEnumerated) as Hc by reflexivity.
  rewrite Hc in H.
  destruct H as (_ & _ & e & He & _ & _ & Hs).
  - discriminate.
  - discriminate.
  - intros _. eexists. reflexivity.
  - rewrite He. rewrite (Hs "unknown-vendor" eq_refl eq_refl). reflexivity.
Defined.

(** C3.  The constructor either throws, and then there is no entity at
    all, or returns an entity whose identifier and url are present and
    whose provider is one of the three enumerated tags. *)
Theorem constructor_all_or_nothing (data : value) :
  (exists e, constructor data = Throw e) \/
  (exists entity,
     constructor data = Ok entity /\
     truthy (id entity) = true /\
     truthy (url entity) = true /\
     (provider entity = Str "openai" \/
      provider entity = Str "stability-ai" \/
      provider entity = Str "midjourney")).
Proof.
  destruct (constructor data) as [entity|e] eqn:Hrun; [right | by eauto].
  exists entity. split; [reflexivity|].
  apply constructor_Ok_inv in Hrun as [Hreq ->]. simpl.
  split; [exact (Hreq IdPresent)|]. split; [exact (Hreq UrlPresent)|].
  pose proof (Hreq ProviderEnumerated) as Hp. simpl in Hp.
  apply array_includes_Str in Hp as (s & -> & Hin).
  simpl in Hin. intuition congruence.
Qed.

(** C6.  A payload whose required fields validate and whose optional
    fields are absent is accepted, with generation time 0 and the
    baseline metadata: width 1024, height 1024, quality 'premium'. *)
Theorem constructor_defaults (data : value) :
  required_fields_validate data ->
  field data "generationTime" = Undefined ->
  field data "metadata" = Undefined ->
  exists entity,
    constructor data = Ok entity /\
    generationTime entity = Num 0 /\
    metadata entity = object [("width", Num 1024); ("height", Num 1024);
                              ("quality", Str "premium")].
Proof.
  intros Hreq Hgen Hmeta. exists (entity_of data).
  split; [by apply constructor_accepts|].
  unfold entity_of. simpl. rewrite Hgen, Hmeta. split; reflexivity.
Qed.

(** The payload [{id: "x", url: "y", provider: "openai"}]. *)
Lemma constructor_defaults_witness :
  exists entity,
    constructor (object [("id", Str "x"); ("url", Str "y");
                         ("provider", Str "openai")]) = Ok entity /\
    generationTime entity = Num 0 /\
    metadata entity = object [("width", Num 1024); ("height", Num 1024);
                              ("quality", Str "premium")].
Proof.
  apply (constructor_defaults
           (object [("id", Str "x"); ("url", Str "y");
                    ("provider", Str "openai")])).
  - intros []; reflexivity.
  - reflexivity.
  - reflexivity.
Defined.

(** C7.  [isFromAuthorizedProvider] is a total boolean function of the
    entity; it answers true exactly for the providers 'openai' and
    'stability-ai', so false for 'midjourney', which the constructor
    accepts. *)
Theorem isFromAuthorizedProvider_spec (entity : t) :
  (isFromAuthorizedProvider entity = true <->
     provider entity = Str "openai" \/ provider entity = Str "stability-ai") /\
  (isFromAuthorizedProvider entity = false <->
     ~ (provider entity = Str "openai" \/ provider entity = Str "stability-ai")) /\
  (provider entity = Str "midjourney" -> isFromAuthorizedProvider entity = false) /\
  (exists accepted,
     constructor (object [("id", Str "x"); ("url", Str "y");
                          ("provider", Str "midjourney")]) = Ok accepted /\
     isFromAuthorizedProvider accepted = false).
Proof.
  assert (isFromAuthorizedProvider entity = true <->
          provider entity = Str "openai" \/ provider entity = Str "stability-ai")
    as Hiff.
  { unfold isFromAuthorizedProvider. rewrite array_includes_Str. split.
    - intros (s & -> & Hin). simpl in Hin. intuition congruence.
    - intros [-> | ->]; eexists; (split; [reflexivity|]); simpl; auto. }
  split; [exact Hiff|]. split; [|split].
  - rewrite <- Hiff. by destruct (isFromAuthorizedProvider entity).
  - intros Hmid. unfold isFromAuthorizedProvider. by rewrite Hmid.
  - eexists. split; reflexivity.
Qed.

(** C8.  Round trip: an entity the constructor returned, fed back as a
    payload holding its five fields, is accepted and yields the same
    entity. *)
Theorem constructor_round_trip (data : value) (entity : t) :
  constructor data = Ok entity ->
  constructor (to_raw entity) = Ok entity.
Proof.
  intros Hrun. apply constructor_Ok_inv in Hrun as [Hreq ->].
  assert (required_fields_validate (to_raw (entity_of data))) as Hraw.
  { intros []; [exact (Hreq IdPresent) | exact (Hreq UrlPresent)
               | exact (Hreq ProviderPresent) | exact (Hreq ProviderEnumerated)]. }
  rewrite (constructor_accepts _ Hraw).
  f_equal. unfold entity_of at 1.
  destruct (to_raw_fields (entity_of data)) as (-> & -> & -> & -> & ->).
  unfold entity_of. simpl. by rewrite !or_else_idem.
Qed.

(** The entity of a payload with a generation time and no metadata. *)
Lemma constructor_round_trip_witness :
  constructor
    (to_raw {| id := Str "img_12345"; url := Str "https://cdn/i.png";
               provider := Str "openai"; generationTime := Num 2845;
               metadata := default_metadata |})
  = Ok {| id := Str "img_12345"; url := Str "https://cdn/i.png";
          provider := Str "openai"; generationTime := Num 2845;
          metadata := default_metadata |}.
Proof.
  apply (constructor_round_trip
           (object [("id", Str "img_12345"); ("url", Str "https://cdn/i.png");
                    ("provider", Str "openai"); ("generationTime", Num 2845)])).
  reflexivity.
Defined.

(** C10.  Metadata is passed through as supplied: when the required
    fields validate and the metadata property is truthy, the payload is
    accepted and the entity's metadata is that very value, whatever its
    shape. *)
Theorem constructor_metadata_passthrough (data : value) :
  required_fields_validate data ->
  truthy (field data "metadata") = true ->
  exists entity,
    constructor data = Ok entity /\
    metadata entity = field data "metadata".
Proof.
  intros Hreq Hmeta. exists (entity_of data).
  split; [by apply constructor_accepts|].
  unfold entity_of. simpl. by apply truthy_or_else.
Qed.

(** A metadata value that is no width/height/quality triple. *)
Lemma constructor_metadata_passthrough_witness :
  exists entity,
    constructor (object [("id", Str "x"); ("url", Str "y");
                         ("provider", Str "openai");
                         ("metadata", Str "not a triple")]) = Ok entity /\
    metadata entity = Str "not a triple".
Proof.
  apply (constructor_metadata_passthrough
           (object [("id", Str "x"); ("url", Str "y");
                    ("provider", Str "openai");
                    ("metadata", Str "not a triple")])).
  - intros []; reflexivity.
  - reflexivity.
Defined.

End ImageAssetDTOClaims.

(** ** Further facts about the ledger *)

Section LedgerFacts.
Import JS ApiHub Contract.

Lemma deliver_cons (response : Response) (responses : list Response) (h : t) :
  deliver (setupInterception blank_page) (response :: responses) h =
  deliver (setupInterception blank_page) responses (exec (on_response response) h).
Proof. reflexivity. Qed.

Lemma matched_channels_cases (response : Response) (channel : string) :
  channel ∈ matched_channels response ->
  channel = "chat_latency" \/ channel = "image_generation_latency".
Proof.
  rewrite matched_channels_eq.
  destruct (includes "/api/chat/messages" (url response));
    destruct (includes "/api/images/generate" (url response));
    simpl; set_unfold; intuition.
Qed.

Lemma on_response_idem (response : Response) (h : t) :
  exec (on_response response) (exec (on_response response) h) =
  exec (on_response response) h.
Proof.
  apply hub_eq, map_eq. intros channel.
  rewrite !on_response_lookup. by destruct (writes response !! channel).
Qed.

(** A session of responses as Playwright delivers them writes nothing. *)
Lemma playwright_session_writes_nothing (targets : list string) :
  observe (playwright_response <$> targets) = new.
Proof.
  induction targets as [|target targets IH] using rev_ind; [reflexivity|].
  rewrite fmap_app. simpl. rewrite observe_snoc, IH.
  unfold exec. rewrite on_response_playwright.
  by destruct (_ || _).
Qed.

End LedgerFacts.

(** ** More on the listener and the ledger *)

Section LedgerExtras.
Import JS ApiHub Contract Scenario.

(** X1.  No sample outlives a real session: after any sequence of
    responses as Playwright delivers them, the ledger is as empty as it
    was created, and [getLatency] answers 0 for every channel. *)
Theorem playwright_session_keeps_no_sample
    (targets : list string) (channel : string) :
  requestTimings (observe (playwright_response <$> targets)) = ∅ /\
  eval (getLatency channel) (observe (playwright_response <$> targets))
  = Ok 0.
Proof. rewrite playwright_session_writes_nothing. by split. Qed.

(** X2.  The ledger of a session never holds a key other than the two
    channel names the listener writes. *)
Theorem ledger_channels
    (responses : list Response) (channel : string) (v : Z) :
  requestTimings (observe responses) !! channel = Some v ->
  channel = "chat_latency" \/ channel = "image_generation_latency".
Proof.
  induction responses as [|response responses IH] using rev_ind.
  - unfold observe. simpl. by rewrite lookup_empty.
  - rewrite observe_snoc, on_response_lookup.
    destruct (writes response !! channel) as [w|] eqn:Hw; [|exact IH].
    intros _. apply (matched_channels_cases response).
    by apply writes_matched in Hw.
Qed.

Lemma ledger_channels_witness :
  "image_generation_latency" = "chat_latency" \/
  "image_generation_latency" = "image_generation_latency".
Proof.
  apply (ledger_channels [chat_response 900; untimed_image_response]
                         "image_generation_latency" 0).
  reflexivity.
Defined.

(** X3.  A response whose URL contains neither rule substring is
    ignored: the listener returns normally and the hub is unchanged. *)
Theorem unmatched_response_ignored (response : Response) (h : t) :
  includes "/api/chat/messages" (url response) = false ->
  includes "/api/images/generate" (url response) = false ->
  on_response response h = (Ok tt, h).
Proof.
  intros Hchat Himage. unfold on_response.
  unfold mbind, M_bind, mret, M_ret. by rewrite Hchat, Himage.
Qed.

Lemma unmatched_response_ignored_witness :
  on_response stylesheet_response (observe [chat_response 900])
  = (Ok tt, observe [chat_response 900]).
Proof.
  apply (unmatched_response_ignored stylesheet_response
           (observe [chat_response 900])); reflexivity.
Defined.

(** X4.  Calling [setupInterception] twice on a page is harmless: the
    listener then runs twice per response, and the ledger ends up the
    same as with a single registration. *)
Theorem setupInterception_twice (responses : list Response) (h : t) :
  deliver (setupInterception (setupInterception blank_page)) responses h =
  deliver (setupInterception blank_page) responses h.
Proof.
  revert h. induction responses as [|response responses IH]; intros h;
    [reflexivity|].
  change (deliver (setupInterception (setupInterception blank_page))
                  (response :: responses) h)
    with (deliver (setupInterception (setupInterception blank_page)) responses
            (exec (on_response response) (exec (on_response response) h))).
  rewrite on_response_idem, IH. reflexivity.
Qed.

(** X5.  Two responses that match no channel in common may be
    delivered in either order: the hub ends up the same. *)
Theorem responses_of_other_channels_commute (r1 r2 : Response) (h : t) :
  (forall channel, channel ∈ matched_channels r1 ->
                   channel ∉ matched_channels r2) ->
  exec (on_response r2) (exec (on_response r1) h) =
  exec (on_response r1) (exec (on_response r2) h).
Proof.
  intros Hdisjoint. apply hub_eq, map_eq. intros channel.
  rewrite !on_response_lookup.
  destruct (writes r1 !! channel) as [v1|] eqn:H1;
    destruct (writes r2 !! channel) as [v2|] eqn:H2; try reflexivity.
  apply writes_matched in H1, H2. by destruct (Hdisjoint channel).
Qed.

Lemma responses_of_other_channels_commute_witness :
  exec (on_response untimed_image_response)
       (exec (on_response (chat_response 900)) new) =
  exec (on_response (chat_response 900))
       (exec (on_response untimed_image_response) new).
Proof.
  apply (responses_of_other_channels_commute
           (chat_response 900) untimed_image_response new).
  intros channel Hin.
  assert (matched_channels (chat_response 900) = ["chat_latency"]) as Heq
    by (vm_compute; reflexivity).
  rewrite Heq in Hin. apply list_elem_of_singleton in Hin as ->.
  apply (bool_decide_unpack _). vm_compute. exact I.
Defined.

End LedgerExtras.

(** ** More on the SLA check *)

Section SlaExtras.
Import JS ApiHub Contract Scenario.

(** X6.  An assertion that passes keeps passing under any looser
    budget. *)
Theorem assertLatencyWithin_budget_monotone
    (h : t) (endpoint : string) (budget looser : Z) :
  eval (assertLatencyWithin endpoint budget) h = Ok tt ->
  budget <= looser ->
  eval (assertLatencyWithin endpoint looser) h = Ok tt.
Proof.
  unfold eval. rewrite !assertLatencyWithin_run. cbn [fst].
  destruct (Z.gtb_spec (or_zero (requestTimings h !! endpoint)) budget);
    [discriminate|].
  intros _ Hle.
  destruct (Z.gtb_spec (or_zero (requestTimings h !! endpoint)) looser);
    [lia | reflexivity].
Qed.

Lemma assertLatencyWithin_budget_monotone_witness :
  eval (assertLatencyWithin "chat_latency" 5000) (observe [chat_response 4800])
  = Ok tt.
Proof.
  apply (assertLatencyWithin_budget_monotone
           (observe [chat_response 4800]) "chat_latency" 4800 5000).
  - reflexivity.
  - lia.
Defined.



(** X8.  A channel holding the sample 0 cannot be told from a channel
    that was never written: [getLatency] and [assertLatencyWithin] answer
    the same on both, for every budget. *)
Theorem zero_sample_reads_as_absent
    (h h' : t) (channel : string) (budget : Z) :
  requestTimings h !! channel = None ->
  requestTimings h' !! channel = Some 0 ->
  eval (getLatency channel) h' = eval (getLatency channel) h /\
  eval (assertLatencyWithin channel budget) h' =
  eval (assertLatencyWithin channel budget) h.
Proof.
  intros Habsent Hzero. unfold eval.
  rewrite !assertLatencyWithin_run, !getLatency_run.
  by rewrite Habsent, Hzero.
Qed.

Lemma zero_sample_reads_as_absent_witness :
  eval (getLatency "image_generation_latency")
       (observe [untimed_image_response])
  = eval (getLatency "image_generation_latency") new /\
  eval (assertLatencyWithin "image_generation_latency" 3000)
       (observe [untimed_image_response])
  = eval (assertLatencyWithin "image_generation_latency" 3000) new.
Proof.
  apply (zero_sample_reads_as_absent new (observe [untimed_image_response])
           "image_generation_latency" 3000); reflexivity.
Defined.

(** X9.  The chat gate is always open on a real response: for a chat
    response as Playwright delivers it the listener takes the measuring
    branch and throws there, so the chat channel holds what it held
    before; on a fresh hub [getLatency] then answers 0 and the chat
    assertion passes for every non-negative budget. *)
Theorem chat_response_passes_any_budget (target : string) (budget : Z) :
  includes "/api/chat/messages" target = true ->
  0 <= budget ->
  postDataBuffer (request (playwright_response target)) = true /\
  eval (on_response (playwright_response target)) new = Throw TypeError /\
  eval (getLatency "chat_latency")
       (exec (on_response (playwright_response target)) new) = Ok 0 /\
  eval (assertLatencyWithin "chat_latency" budget)
       (exec (on_response (playwright_response target)) new) = Ok tt.
Proof.
  intros Hchat Hbudget. unfold eval, exec.
  rewrite assertLatencyWithin_run, getLatency_run, on_response_playwright.
  rewrite Hchat. cbn [orb fst snd]. repeat split.
  change (or_zero (requestTimings new !! "chat_latency")) with 0.
  cbv zeta. destruct (Z.gtb_spec 0 budget); [lia | reflexivity].
Qed.

Lemma chat_response_passes_any_budget_witness :
  eval (assertLatencyWithin "chat_latency" 5000)
       (exec (on_response
                (playwright_response
                   "https://app.example.com/api/chat/messages")) new)
  = Ok tt.
Proof.
  apply (chat_response_passes_any_budget
           "https://app.example.com/api/chat/messages" 5000).
  - reflexivity.
  - lia.
Defined.

End SlaExtras.

(** ** Further facts about the constructor *)

Section ValidatorFacts.
Import JS ImageAssetDTO Contract Scenario.

(** A property the constructor does not read has no influence on what it
    reads. *)
Lemma field_insert_other
    (props : gmap string value) (name p : string) (v : value) :
  name <> p -> field (Obj (<[name := v]> props)) p = field (Obj props) p.
Proof. intros Hne. simpl. by rewrite lookup_insert_ne. Qed.

Lemma required_fields_validate_iff (data : value) :
  required_fields_validate data <->
  truthy (field data "id") = true /\
  truthy (field data "url") = true /\
  array_includes provider_set (field data "provider") = true.
Proof.
  split.
  - intros Hreq. repeat split;
      [exact (Hreq IdPresent) | exact (Hreq UrlPresent)
       | exact (Hreq ProviderEnumerated)].
  - intros (Hid & Hurl & Hprov) []; simpl; try assumption.
    revert Hprov. apply array_includes_truthy. simpl. intuition discriminate.
Qed.

End ValidatorFacts.

(** ** More on the validator and the policy *)

Section ValidatorExtras.
Import JS ImageAssetDTO Contract Scenario.

(** X10.  The constructor reads five properties and nothing else:
    adding or changing any other property of an object payload does not
    change what the constructor returns or throws. *)
Theorem constructor_ignores_other_properties
    (props : gmap string value) (name : string) (v : value) :
  name ∉ dto_properties ->
  constructor (Obj (<[name := v]> props)) = constructor (Obj props).
Proof.
  intros Hname.
  assert (forall p, p ∈ dto_properties ->
            field (Obj (<[name := v]> props)) p = field (Obj props) p) as Hsame.
  { intros p Hp. apply field_insert_other. by intros ->. }
  rewrite !constructor_cascade by discriminate.
  unfold passes, entity_of.
  rewrite !Hsame by (unfold dto_properties; set_solver).
  reflexivity.
Qed.

Lemma constructor_ignores_other_properties_witness :
  constructor (Obj (<["prompt" := Str "a cat"]> minimal_payload))
  = constructor (Obj minimal_payload).
Proof.
  apply (constructor_ignores_other_properties minimal_payload "prompt"
                                              (Str "a cat")).
  apply (bool_decide_unpack _). vm_compute. exact I.
Defined.

(** X11.  A payload is accepted exactly when its id and url are truthy
    and its provider is one of the enumerated tags; the optional fields
    never cause a rejection. *)
Theorem constructor_accepts_iff (data : value) :
  (exists entity, constructor data = Ok entity) <->
  truthy (field data "id") = true /\
  truthy (field data "url") = true /\
  array_includes provider_set (field data "provider") = true.
Proof.
  rewrite <- required_fields_validate_iff. split.
  - intros [entity Hok]. by apply constructor_Ok_inv in Hok as [Hreq _].
  - intros Hreq. eexists. by apply constructor_accepts.
Qed.

(** X12.  The constructor throws a [TypeError] exactly when the payload
    is [null] or [undefined], or when it passes the three presence
    checks with a provider outside the enumeration that cannot be
    rendered as a string for the error message. *)
Theorem constructor_TypeError_iff (data : value) :
  constructor data = Throw TypeError <->
  data = Null \/ data = Undefined \/
  (truthy (field data "id") = true /\
   truthy (field data "url") = true /\
   truthy (field data "provider") = true /\
   array_includes provider_set (field data "provider") = false /\
   to_string (field data "provider") = Throw TypeError).
Proof.
  split.
  - intros Hthrow.
    destruct data; [by right; left | by left | right; right ..];
    rewrite constructor_cascade in Hthrow by discriminate;
    unfold passes in Hthrow;
    (destruct (truthy (field _ "id")); [|discriminate]);
    (destruct (truthy (field _ "url")); [|discriminate]);
    (destruct (truthy (field _ "provider")); [|discriminate]);
    (destruct (array_includes provider_set (field _ "provider"));
      [discriminate|]);
    cbn [negb] in Hthrow;
    (destruct (to_string (field _ "provider")) as [text|e];
      [discriminate|]);
    by injection Hthrow as ->.
  - intros [Hnull | [Hundef | (Hid & Hurl & Hprov & Hout & Hrender)]].
    + apply constructor_nullish. by left.
    + apply constructor_nullish. by right.
    + assert (data <> Null /\ data <> Undefined) as [Hnull Hundef].
      { split; intros ->; discriminate. }
      rewrite constructor_cascade by assumption. unfold passes.
      by rewrite Hid, Hurl, Hprov, Hout, Hrender.
Qed.

(** X13.  A payload that is a string, a number, a boolean or an array
    is rejected for its missing id. *)
Theorem constructor_rejects_non_objects (data : value) :
  data <> Null -> data <> Undefined ->
  (forall props, data <> Obj props) ->
  constructor data = Throw (Error "ImageAsset missing required field: id").
Proof.
  intros Hnull Hundef Hobj. rewrite constructor_cascade by assumption.
  destruct data; try reflexivity; try congruence.
Qed.

Lemma constructor_rejects_non_objects_witness :
  constructor (Arr [Obj minimal_payload])
  = Throw (Error "ImageAsset missing required field: id").
Proof.
  apply (constructor_rejects_non_objects (Arr [Obj minimal_payload]));
    discriminate.
Defined.

(** X14.  A falsy optional field is defaulted like an absent one: a
    generation time of [null], [0], [false] or [''] becomes 0, and such a
    metadata becomes the baseline metadata. *)
Theorem constructor_defaults_falsy_optionals (data : value) :
  required_fields_validate data ->
  exists entity,
    constructor data = Ok entity /\
    (truthy (field data "generationTime") = false ->
       generationTime entity = Num 0) /\
    (truthy (field data "metadata") = false ->
       metadata entity = default_metadata).
Proof.
  intros Hreq. exists (entity_of data).
  split; [by apply constructor_accepts|].
  unfold entity_of, or_else. simpl. split; by intros ->.
Qed.

Lemma constructor_defaults_falsy_optionals_witness :
  exists entity,
    constructor (Obj (<["generationTime" := Null]>
                      (<["metadata" := Bool false]> minimal_payload)))
    = Ok entity /\
    generationTime entity = Num 0 /\
    metadata entity = default_metadata.
Proof.
  destruct (constructor_defaults_falsy_optionals
              (Obj (<["generationTime" := Null]>
                    (<["metadata" := Bool false]> minimal_payload))))
    as (entity & Hok & Hgen & Hmeta).
  - intros []; reflexivity.
  - exists entity. split; [exact Hok|].
    split; [apply Hgen | apply Hmeta]; reflexivity.
Defined.

(** X15.  A truthy generation time is kept as supplied, without a check
    that it is a number or that it is non-negative. *)
Theorem constructor_generationTime_passthrough (data : value) :
  required_fields_validate data ->
  truthy (field data "generationTime") = true ->
  exists entity,
    constructor data = Ok entity /\
    generationTime entity = field data "generationTime".
Proof.
  intros Hreq Hgen. exists (entity_of data).
  split; [by apply constructor_accepts|].
  unfold entity_of. simpl. by apply truthy_or_else.
Qed.

Lemma constructor_generationTime_passthrough_witness :
  exists entity,
    constructor (Obj (<["generationTime" := Num (-5)]> minimal_payload))
    = Ok entity /\
    generationTime entity = Num (-5).
Proof.
  destruct (constructor_generationTime_passthrough
              (Obj (<["generationTime" := Num (-5)]> minimal_payload)))
    as (entity & Hok & Hgen).
  - intros []; reflexivity.
  - reflexivity.
  - exists entity. split; [exact Hok|]. rewrite Hgen. reflexivity.
Defined.

(** X16.  An entity never lacks its optional fields: its metadata is
    truthy, and its generation time is 0 or truthy. *)
Theorem entity_optionals_never_missing (data : value) (entity : t) :
  constructor data = Ok entity ->
  truthy (metadata entity) = true /\
  (generationTime entity = Num 0 \/ truthy (generationTime entity) = true).
Proof.
  intros Hok. apply constructor_Ok_inv in Hok as [_ ->].
  unfold entity_of, or_else. simpl. split.
  - by destruct (truthy (field data "metadata")) eqn:Hm.
  - destruct (truthy (field data "generationTime")) eqn:Hg; auto.
Qed.

Lemma entity_optionals_never_missing_witness :
  truthy (metadata (entity_of (Obj minimal_payload))) = true /\
  (generationTime (entity_of (Obj minimal_payload)) = Num 0 \/
   truthy (generationTime (entity_of (Obj minimal_payload))) = true).
Proof.
  apply (entity_optionals_never_missing (Obj minimal_payload)).
  reflexivity.
Defined.

(** X17.  The required fields of an entity are the payload's values
    themselves; an id that is not a string, such as a number, is kept as
    it is. *)
Theorem constructor_required_passthrough (data : value) (entity : t) :
  constructor data = Ok entity ->
  id entity = field data "id" /\
  url entity = field data "url" /\
  provider entity = field data "provider".
Proof.
  intros Hok. apply constructor_Ok_inv in Hok as [_ ->]. by repeat split.
Qed.

Lemma constructor_required_passthrough_witness :
  exists entity,
    constructor (Obj (<["id" := Num 42]> minimal_payload)) = Ok entity /\
    id entity = Num 42.
Proof.
  exists (entity_of (Obj (<["id" := Num 42]> minimal_payload))).
  split; [reflexivity|].
  destruct (constructor_required_passthrough
              (Obj (<["id" := Num 42]> minimal_payload))
              (entity_of (Obj (<["id" := Num 42]> minimal_payload))))
    as (Hid & _); [reflexivity|].
  rewrite Hid. reflexivity.
Defined.

(** X18.  For an accepted payload the policy verdict can be read off
    the payload: the entity is authorized exactly when the payload's
    provider is 'openai' or 'stability-ai', and unauthorized exactly when
    it is 'midjourney'. *)
Theorem authorization_of_payload (data : value) (entity : t) :
  constructor data = Ok entity ->
  (isFromAuthorizedProvider entity = true <->
     field data "provider" = Str "openai" \/
     field data "provider" = Str "stability-ai") /\
  (isFromAuthorizedProvider entity = false <->
     field data "provider" = Str "midjourney").
Proof.
  intros Hok. apply constructor_Ok_inv in Hok as [Hreq ->].
  pose proof (Hreq ProviderEnumerated) as Hp. simpl in Hp.
  apply array_includes_Str in Hp as (s & Hs & Hin).
  unfold isFromAuthorizedProvider, entity_of. simpl. rewrite Hs.
  simpl in Hin. destruct Hin as [<- | [<- | [<- | []]]]; simpl;
    split; split; intros H; try done; try (destruct H; done); auto.
Qed.

Lemma authorization_of_payload_witness :
  exists entity,
    constructor (Obj (<["provider" := Str "midjourney"]> minimal_payload))
    = Ok entity /\
    isFromAuthorizedProvider entity = false.
Proof.
  exists (entity_of (Obj (<["provider" := Str "midjourney"]> minimal_payload))).
  split; [reflexivity|].
  destruct (authorization_of_payload
              (Obj (<["provider" := Str "midjourney"]> minimal_payload))
              (entity_of (Obj (<["provider" := Str "midjourney"]>
                               minimal_payload))))
    as (_ & Hno); [reflexivity|].
  apply Hno. reflexivity.
Defined.

End ValidatorExtras.

(** ** The user factory *)

Section UserFactoryExtras.
Import UserFactory.

(** X19.  [create] answers every user type with a user, never with
    [undefined]; the user's plan is the requested type, its id is
    [user_<type>_001] and it has credits. *)
Theorem create_plan (userType : UserType) :
  exists user,
    create userType = Some user /\
    plan user = literal userType /\
    userId user = "user_" +:+ literal userType +:+ "_001" /\
    0 < credits user.
Proof. destruct userType; eexists; repeat split. Qed.

(** X20.  Users created for different user types share neither the
    email nor the user id. *)
Theorem create_distinct_credentials (t1 t2 : UserType) (u1 u2 : TestUser) :
  create t1 = Some u1 ->
  create t2 = Some u2 ->
  email u1 = email u2 \/ userId u1 = userId u2 ->
  t1 = t2.
Proof.
  destruct t1, t2; intros [= <-] [= <-] [H | H];
    solve [reflexivity | discriminate H].
Qed.

Lemma create_distinct_credentials_witness : premium = premium.
Proof.
  destruct (create premium) as [u|] eqn:Hu; [|reflexivity].
  apply (create_distinct_credentials premium premium u u Hu Hu).
  by left.
Defined.

End UserFactoryExtras.

(** ** Worked examples: the payloads of the repository's tests, and a few more *)

Section Examples.
Import JS ImageAssetDTO Contract.

(** The response of the authorized-provider test is accepted as it is. *)
Example authorized_provider_response :
  constructor
    (object [("id", Str "img_12345"); ("url", Str "https://cdn/i.png");
             ("provider", Str "openai"); ("generationTime", Num 2845);
             ("metadata", default_metadata)])
  = Ok {| id := Str "img_12345"; url := Str "https://cdn/i.png";
          provider := Str "openai"; generationTime := Num 2845;
          metadata := default_metadata |}.
Proof. reflexivity. Qed.

(** The response of the unauthorized-provider test is rejected. *)
Example untrusted_provider_response :
  constructor
    (object [("id", Str "img_unauthorized");
             ("url", Str "https://untrusted-ai.com/image.png");
             ("provider", Str "untrusted-service");
             ("generationTime", Num 1500); ("metadata", default_metadata)])
  = Throw (Error "ImageAsset has invalid provider: untrusted-service").
Proof. reflexivity. Qed.

(** The response without a provider is rejected for the provider. *)
Example incomplete_response :
  constructor
    (object [("id", Str "img_123");
             ("url", Str "https://example.com/image.png");
             ("metadata", default_metadata)])
  = Throw (Error "ImageAsset missing required field: provider").
Proof. reflexivity. Qed.

(** A payload that is not an object has no identifier. *)
Example string_payload :
  constructor (Str "img_123")
  = Throw (Error "ImageAsset missing required field: id").
Proof. reflexivity. Qed.

(** The chat test's assertion after a chat response as Playwright
    delivers it: nothing was recorded, and the 5000 ms budget passes. *)
Example chat_test_assertion :
  ApiHub.eval (ApiHub.assertLatencyWithin "chat_latency" 5000)
    (observe [ApiHub.playwright_response
                "https://app.example.com/api/chat/messages"])
  = Ok tt.
Proof. reflexivity. Qed.

(** The assertion on a hub fed by a response object that offers
    [timing()], measured at 4800 ms. *)
Example chat_within_sla :
  ApiHub.eval (ApiHub.assertLatencyWithin "chat_latency" 5000)
    (observe [Scenario.chat_response 4800])
  = Ok tt.
Proof. reflexivity. Qed.

Example chat_beyond_sla :
  ApiHub.eval (ApiHub.assertLatencyWithin "chat_latency" 4799)
    (observe [Scenario.chat_response 4800])
  = Throw (Error "[LATENCY SLA VIOLATION] Endpoint: chat_latency took 4800ms (max: 4799ms)").
Proof. reflexivity. Qed.

(** An array provider is rendered by joining its elements. *)
Example array_provider :
  constructor
    (object [("id", Str "x"); ("url", Str "y");
             ("provider", Arr [Str "openai"; Null; Num 2])])
  = Throw (Error "ImageAsset has invalid provider: openai,,2").
Proof. reflexivity. Qed.

End Examples.
